(** * Knowledge collections of Open WebUI: the knowledge router and the S3
    storage provider, as a shallow embedding.

    Sources embedded here:
    - backend/open_webui/apps/webui/routers/knowledge.py
      (add_file_to_knowledge_by_id, remove_file_from_knowledge_by_id,
       delete_knowledge_by_id)
    - backend/open_webui/storage/s3_storage_provider.py
      (S3StorageProvider.upload_file, get_file, as_local_file, delete_file)

    The router is synchronous Python code that threads the state of four
    backing stores (knowledge records, file records, file blobs, the vector
    database) and raises exceptions; it is modelled in a state and exception
    monad in which a raised exception keeps the effects performed before it
    (there is no rollback in the source). Every call to a backing store is
    also recorded in a call log, so the order of effects can be stated. *)

From stdpp Require Import base gmap sets list strings sorting pretty.
From Stdlib Require Import ZArith.

Open Scope string_scope.

(* ------------------------------------------------------------------ *)
(** ** Data model *)

(** [file.data] is a dict; only its truthiness is read by the router. *)
Definition dict := list (string * string).

Definition truthy_dict (d : option dict) : bool :=
  match d with
  | Some (_ :: _) => true
  | _ => false
  end.

(** FileModel (open_webui.apps.webui.models.files). *)
Record FileModel := mkFile {
  file_id : string;
  file_path : string;
  file_data : option dict
}.

(** The [data] dict of a knowledge record; the router only reads and
    writes its ["file_ids"] key. [data_file_ids = None] is the empty dict. *)
Record KnowledgeData := mkKData { data_file_ids : option (list string) }.

Definition empty_kdata : KnowledgeData := mkKData None.

(** KnowledgeModel (open_webui.apps.webui.models.knowledge). *)
Record KnowledgeModel := mkKnowledge {
  k_id : string;
  k_user_id : string;
  k_data : option KnowledgeData
}.

(** The calls the router issues to the backing stores. *)
Inductive call :=
| Call_process_file (file_id collection_name : string)
| Call_vector_delete (collection_name file_id : string)
| Call_vector_delete_collection (collection_name : string)
| Call_files_delete_file_by_id (id : string)
| Call_knowledges_update (id : string)
| Call_knowledges_delete (id : string).

Record St := mkSt {
  knowledges : gmap string KnowledgeModel;
  files : gmap string FileModel;
  blobs : gset string;                  (** stored blob locators *)
  vectors : gset (string * string);     (** (collection_name, file_id) entries *)
  calls : list call
}.

(** [ERROR_MESSAGES] members used by the router; [Text e] is [str(e)]. *)
Inductive detail :=
| NOT_FOUND
| FILE_NOT_PROCESSED
| DEFAULT (what : string)
| Text (e : string).

Inductive exn :=
| HTTPException (status_code : Z) (d : detail)
| AttributeError (msg : string)
| Exception (msg : string).

Definition HTTP_400_BAD_REQUEST : Z := 400.

(** KnowledgeFilesResponse. *)
Record KnowledgeFilesResponse := mkResp {
  resp_knowledge : KnowledgeModel;
  resp_files : list FileModel
}.

(* ------------------------------------------------------------------ *)
(** ** State and exception monad *)

Definition M (A : Type) : Type := St -> (A + exn) * St.

Global Instance M_ret : MRet M := fun A x s => (inl x, s).
Global Instance M_bind : MBind M := fun A B f c s =>
  match c s with
  | (inl x, s') => f x s'
  | (inr e, s') => (inr e, s')
  end.

Definition raise {A} (e : exn) : M A := fun s => (inr e, s).
Definition get_st : M St := fun s => (inl s, s).
Definition put_st (s' : St) : M unit := fun _ => (inl tt, s').

(** [try: c except Exception as e: h(e)] *)
Definition try_except {A} (c : M A) (h : exn -> M A) : M A := fun s =>
  match c s with
  | (inr e, s') => h e s'
  | r => r
  end.

Definition log_call (c : call) : M unit := fun s =>
  (inl tt, mkSt (knowledges s) (files s) (blobs s) (vectors s) ((calls s ++ [c])%list)).

(* ------------------------------------------------------------------ *)
(** ** Backing stores *)

(** Knowledges.get_knowledge_by_id *)
Definition Knowledges_get_knowledge_by_id (id : string) : M (option KnowledgeModel) :=
  fun s => (inl (knowledges s !! id), s).

(** Files.get_file_by_id *)
Definition Files_get_file_by_id (id : string) : M (option FileModel) :=
  fun s => (inl (files s !! id), s).

(** Files.get_files_by_ids: the records found, in the order of the ids. *)
Definition Files_get_files_by_ids (ids : list string) : M (list FileModel) :=
  fun s => (inl (omap (fun i => files s !! i) ids), s).

(** Modelled from the spec: Knowledges.update_knowledge_by_id (models/knowledge.py,
    not in this excerpt), per §4.1: [update(id, partialForm) -> Collection | None],
    replacing [data]; [None] when there is no such collection. *)
Definition Knowledges_update_knowledge_by_id (id : string) (data : KnowledgeData)
  : M (option KnowledgeModel) :=
  log_call (Call_knowledges_update id) ;;
  s ← get_st;
  match knowledges s !! id with
  | Some k =>
      let k' := mkKnowledge (k_id k) (k_user_id k) (Some data) in
      put_st (mkSt (<[id := k']> (knowledges s)) (files s) (blobs s) (vectors s) (calls s)) ;;
      mret (Some k')
  | None => mret None
  end.

(** Modelled from the spec: Knowledges.delete_knowledge_by_id (not in this
    excerpt), per §4.1: [delete(id) -> bool], true iff a record existed and
    was removed. *)
Definition Knowledges_delete_knowledge_by_id (id : string) : M bool :=
  log_call (Call_knowledges_delete id) ;;
  s ← get_st;
  put_st (mkSt (delete id (knowledges s)) (files s) (blobs s) (vectors s) (calls s)) ;;
  mret (bool_decide (is_Some (knowledges s !! id))).

(** Modelled from the spec: Files.delete_file_by_id (not in this excerpt),
    per §4.3 step 3: deletes the file's blob and its File Record Store entry. *)
Definition Files_delete_file_by_id (id : string) : M unit :=
  log_call (Call_files_delete_file_by_id id) ;;
  s ← get_st;
  let bl := match files s !! id with
            | Some f => blobs s ∖ {[ file_path f ]}
            | None => blobs s
            end in
  put_st (mkSt (knowledges s) (delete id (files s)) bl (vectors s) (calls s)).

(** Modelled from the spec: process_file (apps/retrieval/main.py, not in this
    excerpt), per §4.2 step 3 and §2: indexes the file's content into the
    collection's vector index. Its outcome is an input of the model:
    [outcome = None] is success, [Some e] raises [Exception e] with no state
    change. *)
Definition process_file (outcome : option string) (file_id collection_name : string)
  : M unit :=
  log_call (Call_process_file file_id collection_name) ;;
  match outcome with
  | Some e => raise (Exception e)
  | None =>
      s ← get_st;
      put_st (mkSt (knowledges s) (files s) (blobs s)
                ({[ (collection_name, file_id) ]} ∪ vectors s) (calls s))
  end.

(** Modelled from the spec: VECTOR_DB_CLIENT.delete with a file_id filter
    (§2: delete by file-id filter within a collection; idempotent). *)
Definition VECTOR_DB_CLIENT_delete (collection_name file_id : string) : M unit :=
  log_call (Call_vector_delete collection_name file_id) ;;
  s ← get_st;
  put_st (mkSt (knowledges s) (files s) (blobs s)
            (filter (fun e => e <> (collection_name, file_id)) (vectors s)) (calls s)).

(** Modelled from the spec: VECTOR_DB_CLIENT.delete_collection (§4.4:
    idempotent if absent). *)
Definition VECTOR_DB_CLIENT_delete_collection (collection_name : string) : M unit :=
  log_call (Call_vector_delete_collection collection_name) ;;
  s ← get_st;
  put_st (mkSt (knowledges s) (files s) (blobs s)
            (filter (fun e => e.1 <> collection_name) (vectors s)) (calls s)).

(* ------------------------------------------------------------------ *)
(** ** The router *)

(** [list.remove(x)]: removes the first occurrence (called only when
    [x in l]). *)
Fixpoint py_list_remove (x : string) (l : list string) : list string :=
  match l with
  | [] => []
  | y :: l' => if String.eqb y x then l' else y :: py_list_remove x l'
  end.

(** [knowledge.data or {}] *)
Definition data_or_empty (d : option KnowledgeData) : KnowledgeData :=
  match d with Some d => d | None => empty_kdata end.

(** [data.get("file_ids", [])] *)
Definition get_file_ids (d : KnowledgeData) : list string :=
  match data_file_ids d with Some l => l | None => [] end.

Definition bad_request {A} (d : detail) : M A :=
  raise (HTTPException HTTP_400_BAD_REQUEST d).

(** add_file_to_knowledge_by_id, lines 136-196; [ix] is the outcome of the
    [process_file] call. *)
Definition add_file_to_knowledge_by_id (ix : option string) (id file_id : string)
  : M KnowledgeFilesResponse :=
  knowledge ← Knowledges_get_knowledge_by_id id;
  file ← Files_get_file_by_id file_id;
  match file with
  | None => bad_request NOT_FOUND
  | Some file =>
  if negb (truthy_dict (file_data file)) then bad_request FILE_NOT_PROCESSED else
  try_except (process_file ix file_id id)
    (fun e => match e with
              | Exception m | AttributeError m => bad_request (Text m)
              | HTTPException _ _ => raise e
              end) ;;
  match knowledge with
  | Some knowledge =>
      let data := data_or_empty (k_data knowledge) in
      let file_ids := get_file_ids data in
      if bool_decide (file_id ∉ file_ids) then
        let file_ids := (file_ids ++ [file_id])%list in
        let data := mkKData (Some file_ids) in
        knowledge ← Knowledges_update_knowledge_by_id id data;
        match knowledge with
        | Some knowledge =>
            files ← Files_get_files_by_ids file_ids;
            mret (mkResp knowledge files)
        | None => bad_request (DEFAULT "knowledge")
        end
      else bad_request (DEFAULT "file_id")
  | None => bad_request NOT_FOUND
  end
  end.

(** [knowledge.id] on an optional record. *)
Definition attr_id (k : option KnowledgeModel) : M string :=
  match k with
  | Some k => mret (k_id k)
  | None => raise (AttributeError "'NoneType' object has no attribute 'id'")
  end.

(** remove_file_from_knowledge_by_id, lines 208-262. *)
Definition remove_file_from_knowledge_by_id (id file_id : string)
  : M KnowledgeFilesResponse :=
  knowledge ← Knowledges_get_knowledge_by_id id;
  file ← Files_get_file_by_id file_id;
  match file with
  | None => bad_request NOT_FOUND
  | Some _ =>
  coll ← attr_id knowledge;
  VECTOR_DB_CLIENT_delete coll file_id ;;
  Files_delete_file_by_id file_id ;;
  match knowledge with
  | Some knowledge =>
      let data := data_or_empty (k_data knowledge) in
      let file_ids := get_file_ids data in
      if bool_decide (file_id ∈ file_ids) then
        let file_ids := py_list_remove file_id file_ids in
        let data := mkKData (Some file_ids) in
        knowledge ← Knowledges_update_knowledge_by_id id data;
        match knowledge with
        | Some knowledge =>
            files ← Files_get_files_by_ids file_ids;
            mret (mkResp knowledge files)
        | None => bad_request (DEFAULT "knowledge")
        end
      else bad_request (DEFAULT "file_id")
  | None => bad_request NOT_FOUND
  end
  end.

(** delete_knowledge_by_id, lines 270-274. *)
Definition delete_knowledge_by_id (id : string) : M bool :=
  VECTOR_DB_CLIENT_delete_collection id ;;
  result ← Knowledges_delete_knowledge_by_id id;
  mret result.

Definition HTTP_401_UNAUTHORIZED : Z := 401.

(** Modelled from the spec: Knowledges.get_knowledge_items (not in this
    excerpt), per §4.1 [listAll() -> sequence<Collection>]: every record. *)
Definition Knowledges_get_knowledge_items : M (list KnowledgeModel) :=
  fun s => (inl ((map_to_list (knowledges s)).*2), s).

(** Python truthiness of an [Optional[str]]. *)
Definition truthy_str (id : option string) : bool :=
  match id with
  | Some (String _ _) => true
  | _ => false
  end.

(** get_knowledge_items, lines 29-49: a list when no (or an empty) id is
    given, else the one record. *)
Definition get_knowledge_items (id : option string)
  : M (list KnowledgeModel + KnowledgeModel) :=
  match id with
  | Some i =>
      if truthy_str id then
        knowledge ← Knowledges_get_knowledge_by_id i;
        match knowledge with
        | Some knowledge => mret (inr knowledge)
        | None => raise (HTTPException HTTP_401_UNAUTHORIZED NOT_FOUND)
        end
      else ks ← Knowledges_get_knowledge_items; mret (inl ks)
  | None => ks ← Knowledges_get_knowledge_items; mret (inl ks)
  end.

(** [knowledge.data.get("file_ids", []) if knowledge.data else []] *)
Definition data_file_ids_or_empty (d : option KnowledgeData) : list string :=
  match d with
  | Some d => get_file_ids d
  | None => []
  end.

(** get_knowledge_by_id, lines 79-95. *)
Definition get_knowledge_by_id (id : string) : M KnowledgeFilesResponse :=
  knowledge ← Knowledges_get_knowledge_by_id id;
  match knowledge with
  | Some knowledge =>
      let file_ids := data_file_ids_or_empty (k_data knowledge) in
      files ← Files_get_files_by_ids file_ids;
      mret (mkResp knowledge files)
  | None => raise (HTTPException HTTP_401_UNAUTHORIZED NOT_FOUND)
  end.

Definition run {A} (c : M A) (s : St) : (A + exn) * St := c s.

(* ------------------------------------------------------------------ *)
(** ** Sample stores *)

Definition f1 : FileModel := mkFile "f1" "s3://b/p/f1" (Some [("content", "hello")]).
Definition f2 : FileModel := mkFile "f2" "s3://b/p/f2" None.
Definition k1 (ids : list string) : KnowledgeModel :=
  mkKnowledge "k1" "u1" (Some (mkKData (Some ids))).

Definition st0 (ks : gmap string KnowledgeModel) : St :=
  mkSt ks (<["f1" := f1]> (<["f2" := f2]> ∅)) {[ "s3://b/p/f1"; "s3://b/p/f2" ]} ∅ [].

(* ------------------------------------------------------------------ *)
(** ** S3StorageProvider *)

Module S3.

Definition bytes := list Byte.byte.

(** Python [str.split(sep)] for a non-empty [sep]: cut at every
    non-overlapping occurrence, scanning left to right. [skip] counts the
    remaining characters of a separator just matched; [cur] is the piece
    being built. *)
Fixpoint py_split_go (sep s : string) (skip : nat) (cur : string) : list string :=
  match s with
  | EmptyString => [cur]
  | String c s' =>
      match skip with
      | S k => py_split_go sep s' k cur
      | O =>
          if String.prefix sep s
          then cur :: py_split_go sep s' (String.length sep - 1) ""
          else py_split_go sep s' 0 (cur +:+ String c "")
      end
  end.

Definition py_split (sep s : string) : list string := py_split_go sep s 0 "".

(** Python [str.split(sep, 1)]: cut at the first occurrence only. *)
Fixpoint py_split1_go (sep s : string) (cur : string) : list string :=
  match s with
  | EmptyString => [cur]
  | String c s' =>
      if String.prefix sep s
      then [cur; String.substring (String.length sep) (String.length s - String.length sep) s]
      else py_split1_go sep s' (cur +:+ String c "")
  end.

Definition py_split1 (sep s : string) : list string := py_split1_go sep s "".

(** [bucket_name, key = file_path.split("//")[1].split("/", 1)];
    [None] is the IndexError or the unpacking ValueError. *)
Definition parse_file_path (file_path : string) : option (string * string) :=
  match py_split "//" file_path with
  | _ :: p1 :: _ =>
      match py_split1 "/" p1 with
      | [bucket_name; key] => Some (bucket_name, key)
      | _ => None
      end
  | _ => None
  end.

Inductive s3exn :=
| ValueError (msg : string)
| RuntimeError (msg : string).

Definition EMPTY_CONTENT : string := "The content provided is empty. Please ensure that there is text or data present before proceeding.".

(** The provider's configuration ([S3_BUCKET_NAME], [S3_BUCKET_PREFIX]). *)
Record S3StorageProvider := mkProvider {
  bucket_name : string;
  bucket_prefix : string
}.

(** The object store (keyed by (Bucket, Key)) and the local cache directory. *)
Record S3St := mkS3St {
  objects : gmap (string * string) bytes;
  local_files : gmap string bytes
}.

(** The outcome of the S3 client calls of one operation is an input of the
    model: [None] is success, [Some e] is the exception [e] they raise. *)
Definition client_outcome := option string.

Definition S3_LOCAL_CACHE_DIR : string := "/app/backend/data/cache/s3".

(** upload_file, lines 33-44; [contents] is [file.read()]. *)
Definition upload_file (self : S3StorageProvider) (client : client_outcome)
  (contents : bytes) (filename : string) (st : S3St)
  : (bytes * string + s3exn) * S3St :=
  match contents with
  | [] => (inr (ValueError EMPTY_CONTENT), st)
  | _ =>
      match client with
      | Some e => (inr (RuntimeError ("Error uploading file to S3: " +:+ e)), st)
      | None =>
          let key := bucket_prefix self +:+ "/" +:+ filename in
          (inl (contents, "s3://" +:+ bucket_name self +:+ "/" +:+ bucket_prefix self +:+ "/" +:+ filename),
           mkS3St (<[(bucket_name self, key) := contents]> (objects st)) (local_files st))
      end
  end.

Definition NoSuchKey : string := "An error occurred (NoSuchKey) when calling the GetObject operation".

(** get_file, lines 46-55: the bytes it yields, concatenated. *)
Definition get_file (self : S3StorageProvider) (client : client_outcome)
  (file_path : string) (st : S3St) : (bytes + s3exn) * S3St :=
  let fail e := (inr (RuntimeError ("Error downloading file " +:+ file_path +:+ " from S3: " +:+ e)), st) in
  match parse_file_path file_path with
  | None => fail "unpacking or index error"
  | Some (bucket_name, key) =>
      match client with
      | Some e => fail e
      | None =>
          match objects st !! (bucket_name, key) with
          | Some body => (inl body, st)
          | None => fail NoSuchKey
          end
      end
  end.

(** as_local_file, lines 57-67: the path of the downloaded copy. *)
Definition as_local_file (self : S3StorageProvider) (client : client_outcome)
  (file_path : string) (st : S3St) : (string + s3exn) * S3St :=
  let fail e := (inr (RuntimeError ("Error downloading file " +:+ file_path +:+ " from S3: " +:+ e)), st) in
  match parse_file_path file_path with
  | None => fail "unpacking or index error"
  | Some (bucket_name, key) =>
      let local_file_path := S3_LOCAL_CACHE_DIR +:+ "/" +:+ key in
      match client with
      | Some e => fail e
      | None =>
          match objects st !! (bucket_name, key) with
          | Some body =>
              (inl local_file_path,
               mkS3St (objects st) (<[local_file_path := body]> (local_files st)))
          | None => fail NoSuchKey
          end
      end
  end.

(** delete_file, lines 69-75. *)
Definition delete_file (self : S3StorageProvider) (client : client_outcome)
  (filename : string) (st : S3St) : (unit + s3exn) * S3St :=
  match client with
  | Some e => (inr (RuntimeError ("Error deleting file " +:+ filename +:+ " from S3: " +:+ e)), st)
  | None => (inl tt, mkS3St (delete (bucket_name self, filename) (objects st)) (local_files st))
  end.

Definition prov : S3StorageProvider := mkProvider "bucket" "uploads".
Definition empty_s3 : S3St := mkS3St ∅ ∅.
Definition hello : bytes := [Byte.x68; Byte.x69].

(** The keys of the bucket [bucket] that start with [prefix] (S3's [Prefix]
    is a plain string prefix). *)
Definition prefixed_keys (bucket prefix : string) (objs : gmap (string * string) bytes)
  : list string :=
  omap (fun '(bk, _) => let '(b, k) := bk in
          if bool_decide (b = bucket) && String.prefix prefix k then Some k else None)
       (map_to_list objs).

(** [list_objects_v2(Bucket, Prefix)]: those keys in ascending order, at
    most [MaxKeys] = 1000 of them (one page; the code reads no continuation
    token). *)
Definition list_objects_v2 (bucket prefix : string) (objs : gmap (string * string) bytes)
  : list string :=
  take 1000 (merge_sort String.le (prefixed_keys bucket prefix objs)).

(** The outcome of the calls of delete_all_files: [None] is success,
    [Some (n, e)] is the exception [e] raised after the first [n]
    [delete_object] calls succeeded ([n = 0] also covers a failing listing). *)
Definition delete_all_outcome := option (nat * string).

(** delete_all_files, lines 77-86. *)
Definition delete_all_files (self : S3StorageProvider) (client : delete_all_outcome)
  (st : S3St) : (unit + s3exn) * S3St :=
  let keys := list_objects_v2 (bucket_name self) (bucket_prefix self) (objects st) in
  let del ks := foldl (fun m k => delete (bucket_name self, k) m) (objects st) ks in
  match client with
  | None => (inl tt, mkS3St (del keys) (local_files st))
  | Some (n, e) =>
      (inr (RuntimeError ("Error deleting all files from S3: " +:+ e)),
       mkS3St (del (take n keys)) (local_files st))
  end.

(** Whether [sep] occurs in [s] as a substring. *)
Fixpoint occurs (sep s : string) : bool :=
  match s with
  | EmptyString => String.prefix sep EmptyString
  | String _ s' => String.prefix sep s || occurs sep s'
  end.

End S3.

(* ------------------------------------------------------------------ *)
(** ** The Synchronizer as the spec states it (§4.2, §3) *)

(** The failure kinds of §4.2 and §7. *)
Inductive sync_failure :=
| NotFound_file
| NotReady_file
| IndexingFailed (e : string)
| NotFound_collection
| Conflict_duplicate_member.

(** §4.2: the first precondition of [addFile] that fails, in the spec's
    order; [ix] is the outcome of the indexing step. *)
Definition addFile_precondition (ix : option string) (id file_id : string) (s : St)
  : option sync_failure :=
  match files s !! file_id with
  | None => Some NotFound_file
  | Some f =>
      if negb (truthy_dict (file_data f)) then Some NotReady_file else
      match ix with
      | Some e => Some (IndexingFailed e)
      | None =>
          match knowledges s !! id with
          | None => Some NotFound_collection
          | Some k =>
              if bool_decide (file_id ∈ get_file_ids (data_or_empty (k_data k)))
              then Some Conflict_duplicate_member else None
          end
      end
  end.

(** The HTTP error detail the router raises for each failure kind. *)
Definition detail_of_failure (fl : sync_failure) : detail :=
  match fl with
  | NotFound_file => NOT_FOUND
  | NotReady_file => FILE_NOT_PROCESSED
  | IndexingFailed e => Text e
  | NotFound_collection => NOT_FOUND
  | Conflict_duplicate_member => DEFAULT "file_id"
  end.

(** Whether [addFile] gets past steps 1 and 2 and calls the indexer. *)
Definition reaches_indexing (s : St) (file_id : string) : bool :=
  match files s !! file_id with
  | Some f => truthy_dict (file_data f)
  | None => false
  end.

(** The [file_ids] of a knowledge record, as the router reads them. *)
Definition member_ids (k : KnowledgeModel) : list string :=
  get_file_ids (data_or_empty (k_data k)).

(** Invariant I2: no collection's [file_ids] holds a duplicate. *)
Definition I2 (s : St) : Prop :=
  forall id k, knowledges s !! id = Some k -> NoDup (member_ids k).

(** A bucket with 1001 objects under the prefix [uploads]. *)
Definition many_uploads : gmap (string * string) S3.bytes :=
  list_to_map (map (fun n => (("bucket", "uploads/" +:+ pretty (N.of_nat n)), S3.hello)) (seq 0 1001)).

(* ------------------------------------------------------------------ *)
(** ** Tests *)

Example add_ok_example :
  fst (run (add_file_to_knowledge_by_id None "k1" "f1") (st0 {[ "k1" := k1 [] ]}))
  = inl (mkResp (k1 ["f1"]) [f1]).
Proof. reflexivity. Qed.

Example add_twice_example :
  let s1 := snd (run (add_file_to_knowledge_by_id None "k1" "f1") (st0 {[ "k1" := k1 [] ]})) in
  fst (run (add_file_to_knowledge_by_id None "k1" "f1") s1)
  = inr (HTTPException 400 (DEFAULT "file_id")).
Proof. reflexivity. Qed.

Example remove_ok_example :
  fst (run (remove_file_from_knowledge_by_id "k1" "f1") (st0 {[ "k1" := k1 ["f1"] ]}))
  = inl (mkResp (k1 []) []).
Proof. reflexivity. Qed.

Example delete_twice_example :
  let (r1, s1) := run (delete_knowledge_by_id "k1") (st0 {[ "k1" := k1 [] ]}) in
  (r1, fst (run (delete_knowledge_by_id "k1") s1)) = (inl true, inl false).
Proof. reflexivity. Qed.

Example split_example : S3.py_split "//" "s3://b/p/a//c" = ["s3:"; "b/p/a"; "c"].
Proof. reflexivity. Qed.

Example split_end_example : S3.py_split "//" "a//" = ["a"; ""].
Proof. reflexivity. Qed.

Example split1_example : S3.py_split1 "/" "b/p/q" = ["b"; "p/q"].
Proof. reflexivity. Qed.

Example roundtrip_example :
  match S3.upload_file S3.prov None S3.hello "f.txt" S3.empty_s3 with
  | (inl (_, loc), st) => fst (S3.get_file S3.prov None loc st) = inl S3.hello
  | _ => False
  end.
Proof. vm_compute. reflexivity. Qed.


(* ------------------------------------------------------------------ *)
(** ** Running the router symbolically *)

Ltac run_router :=
  unfold run, add_file_to_knowledge_by_id, remove_file_from_knowledge_by_id,
    delete_knowledge_by_id, Knowledges_get_knowledge_by_id, Files_get_file_by_id,
    Files_get_files_by_ids, Knowledges_update_knowledge_by_id,
    Knowledges_delete_knowledge_by_id, Files_delete_file_by_id, process_file,
    VECTOR_DB_CLIENT_delete, VECTOR_DB_CLIENT_delete_collection, attr_id,
    try_except, bad_request, raise, log_call, get_st, put_st,
    mbind, M_bind, mret, M_ret;
  simpl.

Lemma py_list_remove_sublist (x : string) (l : list string) :
  py_list_remove x l `sublist_of` l.
Proof.
  induction l as [|y l IH]; simpl.
  - constructor.
  - destruct (String.eqb y x).
    + apply sublist_cons. reflexivity.
    + by apply sublist_skip.
Qed.

(** C1: removeFile on an existing file and a missing collection evaluates
    [knowledge.id] on [None] (line 224) before the existence check of line
    229: it raises AttributeError, not the NOT_FOUND HTTP error. *)
Theorem remove_file_missing_collection_crashes (s : St) (id fid : string) (f : FileModel) :
  files s !! fid = Some f ->
  knowledges s !! id = None ->
  run (remove_file_from_knowledge_by_id id fid) s
  = (inr (AttributeError "'NoneType' object has no attribute 'id'"), s).
Proof. intros Hf Hk. run_router. rewrite Hk, Hf. reflexivity. Qed.

Lemma remove_file_missing_collection_crashes_witness :
  files (st0 ∅) !! "f1" = Some f1 /\ knowledges (st0 ∅) !! "k1" = None /\
  run (remove_file_from_knowledge_by_id "k1" "f1") (st0 ∅)
  = (inr (AttributeError "'NoneType' object has no attribute 'id'"), st0 ∅).
Proof.
  split; [reflexivity|]. split; [reflexivity|].
  apply (remove_file_missing_collection_crashes (st0 ∅) "k1" "f1" f1); reflexivity.
Defined.

(** C2 (counterexample): a missing file (step 1) and a missing collection
    (step 4) raise the same HTTP error, so the five failures are not all
    distinct. *)
Lemma add_file_not_found_failures_coincide :
  addFile_precondition None "k1" "f9" (st0 {[ "k1" := k1 [] ]}) = Some NotFound_file /\
  addFile_precondition None "k9" "f1" (st0 {[ "k1" := k1 [] ]}) = Some NotFound_collection /\
  fst (run (add_file_to_knowledge_by_id None "k1" "f9") (st0 {[ "k1" := k1 [] ]}))
  = fst (run (add_file_to_knowledge_by_id None "k9" "f1") (st0 {[ "k1" := k1 [] ]})).
Proof. split; [reflexivity|]. split; reflexivity. Qed.

(** C2 (amended): addFile checks, in the order of §4.2, that the file exists,
    that it is processed, that indexing succeeds, that the collection exists
    and that the file is not yet a member; the first failing check decides the
    HTTP error ([NOT_FOUND] for both a missing file and a missing collection),
    and when none fails the call succeeds. The indexer is called exactly when
    the first two checks pass, before the collection's existence is checked: with a
    successful indexing and no collection record, the vector index has gained
    the entry and the call fails with NOT_FOUND. *)
Theorem add_file_precondition_order (ix : option string) (id fid : string) (s : St) :
  match addFile_precondition ix id fid s with
  | Some fl =>
      fst (run (add_file_to_knowledge_by_id ix id fid) s)
      = inr (HTTPException HTTP_400_BAD_REQUEST (detail_of_failure fl))
  | None => exists r, fst (run (add_file_to_knowledge_by_id ix id fid) s) = inl r
  end /\
  (reaches_indexing s fid = false ->
     snd (run (add_file_to_knowledge_by_id ix id fid) s) = s) /\
  (reaches_indexing s fid = true ->
     exists tail, calls (snd (run (add_file_to_knowledge_by_id ix id fid) s))
                  = (calls s ++ Call_process_file fid id :: tail)%list) /\
  (reaches_indexing s fid = true -> ix = None -> knowledges s !! id = None ->
     (id, fid) ∈ vectors (snd (run (add_file_to_knowledge_by_id ix id fid) s)) /\
     fst (run (add_file_to_knowledge_by_id ix id fid) s)
     = inr (HTTPException HTTP_400_BAD_REQUEST NOT_FOUND)).
Proof.
  unfold addFile_precondition, reaches_indexing.
  run_router.
  destruct (files s !! fid) as [f|] eqn:Hf; simpl.
  2:{ repeat split; intros; try discriminate; reflexivity. }
  destruct (truthy_dict (file_data f)) eqn:Ht; simpl.
  2:{ repeat split; intros; try discriminate; reflexivity. }
  destruct ix as [e|]; simpl.
  - repeat split; intros; try discriminate.
    exists []. reflexivity.
  - destruct (knowledges s !! id) as [k|] eqn:Hk; simpl.
    + destruct (decide (fid ∈ get_file_ids (data_or_empty (k_data k)))) as [Hin|Hin].
      * rewrite (bool_decide_true (fid ∈ _)) by done.
        rewrite (bool_decide_false (fid ∉ _)) by auto. simpl.
        repeat split; intros; try discriminate.
        exists []. reflexivity.
      * rewrite (bool_decide_false (fid ∈ _)) by done.
        rewrite (bool_decide_true (fid ∉ _)) by done. simpl.
        rewrite Hk. simpl.
        repeat split; intros; try discriminate.
        -- eexists. reflexivity.
        -- eexists. simpl. rewrite <- app_assoc. reflexivity.
    + repeat split; intros; try discriminate.
      * exists []. reflexivity.
      * set_solver.
Qed.

Lemma add_file_precondition_order_witness :
  reaches_indexing (st0 ∅) "f1" = true /\
  (("k1", "f1") ∈ vectors (snd (run (add_file_to_knowledge_by_id None "k1" "f1") (st0 ∅))) /\
   fst (run (add_file_to_knowledge_by_id None "k1" "f1") (st0 ∅))
   = inr (HTTPException HTTP_400_BAD_REQUEST NOT_FOUND)).
Proof.
  split; [reflexivity|].
  apply (add_file_precondition_order None "k1" "f1" (st0 ∅)); reflexivity.
Defined.

(** C3 (counterexample): when the file is already a member and indexing
    fails, the collection still lists the file afterwards. *)
Lemma add_file_indexing_failure_member_stays :
  let s := st0 {[ "k1" := k1 ["f1"] ]} in
  let r := run (add_file_to_knowledge_by_id (Some "index error") "k1" "f1") s in
  fst r = inr (HTTPException HTTP_400_BAD_REQUEST (Text "index error")) /\
  exists k, knowledges (snd r) !! "k1" = Some k /\
            "f1" ∈ get_file_ids (data_or_empty (k_data k)).
Proof.
  simpl. split; [reflexivity|].
  eexists. split; [reflexivity|]. simpl. set_solver.
Qed.

(** C3 (amended): when the file exists and is processed and the indexing step
    raises [e], addFile fails with the HTTP error carrying [str(e)], the only
    store call made is the indexing call, and every store (knowledge records
    included) is left as it was: file_ids contains file_id afterwards exactly
    when it did before. *)
Theorem add_file_indexing_failure_no_update (e id fid : string) (s : St) (f : FileModel) :
  files s !! fid = Some f ->
  truthy_dict (file_data f) = true ->
  run (add_file_to_knowledge_by_id (Some e) id fid) s
  = (inr (HTTPException HTTP_400_BAD_REQUEST (Text e)),
     mkSt (knowledges s) (files s) (blobs s) (vectors s)
          (calls s ++ [Call_process_file fid id])%list).
Proof. intros Hf Ht. run_router. rewrite Hf, Ht. reflexivity. Qed.

Lemma add_file_indexing_failure_no_update_witness :
  files (st0 {[ "k1" := k1 [] ]}) !! "f1" = Some f1 /\ truthy_dict (file_data f1) = true /\
  run (add_file_to_knowledge_by_id (Some "index error") "k1" "f1") (st0 {[ "k1" := k1 [] ]})
  = (inr (HTTPException HTTP_400_BAD_REQUEST (Text "index error")),
     let s := st0 {[ "k1" := k1 [] ]} in
     mkSt (knowledges s) (files s) (blobs s) (vectors s)
          (calls s ++ [Call_process_file "f1" "k1"])%list).
Proof.
  split; [reflexivity|]. split; [reflexivity|].
  apply (add_file_indexing_failure_no_update "index error" "k1" "f1" (st0 {[ "k1" := k1 [] ]}) f1);
    reflexivity.
Defined.

(** C4: once the file and the collection exist, removeFile deletes the file's
    vector entries, its blob and its file record whatever the membership
    check then says; when the file is not a member the call fails with the
    [DEFAULT("file_id")] conflict after both deletions, which are not undone. *)
Theorem remove_file_deletes_before_membership_check
    (s : St) (id fid : string) (f : FileModel) (k : KnowledgeModel) :
  files s !! fid = Some f ->
  knowledges s !! id = Some k ->
  let s' := snd (run (remove_file_from_knowledge_by_id id fid) s) in
  files s' !! fid = None /\ (file_path f ∉ blobs s') /\ ((k_id k, fid) ∉ vectors s') /\
  (fid ∉ get_file_ids (data_or_empty (k_data k)) ->
   run (remove_file_from_knowledge_by_id id fid) s
   = (inr (HTTPException HTTP_400_BAD_REQUEST (DEFAULT "file_id")),
      mkSt (knowledges s) (delete fid (files s)) (blobs s ∖ {[ file_path f ]})
           (filter (fun e => e <> (k_id k, fid)) (vectors s))
           (calls s ++ [Call_vector_delete (k_id k) fid;
                        Call_files_delete_file_by_id fid])%list)).
Proof.
  intros Hf Hk. run_router. rewrite Hk, Hf. simpl. rewrite Hf. simpl.
  destruct (decide (fid ∈ get_file_ids (data_or_empty (k_data k)))) as [Hin|Hin].
  - rewrite (bool_decide_true (fid ∈ _)) by done. simpl. rewrite Hk. simpl.
    repeat split.
    + apply lookup_delete_eq.
    + set_solver.
    + rewrite elem_of_filter. intros [? _]. done.
    + done.
  - rewrite (bool_decide_false (fid ∈ _)) by done. simpl.
    repeat split.
    + apply lookup_delete_eq.
    + set_solver.
    + rewrite elem_of_filter. intros [? _]. done.
    + intros _. rewrite <- app_assoc. reflexivity.
Qed.

Lemma remove_file_deletes_before_membership_check_witness :
  let s' := snd (run (remove_file_from_knowledge_by_id "k1" "f1") (st0 {[ "k1" := k1 [] ]})) in
  files s' !! "f1" = None /\ (file_path f1 ∉ blobs s') /\ ((k_id (k1 []), "f1") ∉ vectors s') /\
  ("f1" ∉ get_file_ids (data_or_empty (k_data (k1 []))) ->
   run (remove_file_from_knowledge_by_id "k1" "f1") (st0 {[ "k1" := k1 [] ]})
   = (inr (HTTPException HTTP_400_BAD_REQUEST (DEFAULT "file_id")),
      let s := st0 {[ "k1" := k1 [] ]} in
      mkSt (knowledges s) (delete "f1" (files s)) (blobs s ∖ {[ file_path f1 ]})
           (filter (fun e => e <> (k_id (k1 []), "f1")) (vectors s))
           (calls s ++ [Call_vector_delete (k_id (k1 [])) "f1";
                        Call_files_delete_file_by_id "f1"])%list)).
Proof.
  apply (remove_file_deletes_before_membership_check (st0 {[ "k1" := k1 [] ]}) "k1" "f1" f1 (k1 []));
    reflexivity.
Defined.

Lemma add_file_knowledges (ix : option string) (id fid : string) (s : St) :
  knowledges (snd (run (add_file_to_knowledge_by_id ix id fid) s)) = knowledges s \/
  exists k, knowledges s !! id = Some k /\ (fid ∉ member_ids k) /\
    knowledges (snd (run (add_file_to_knowledge_by_id ix id fid) s))
    = <[id := mkKnowledge (k_id k) (k_user_id k)
                (Some (mkKData (Some (member_ids k ++ [fid])%list)))]> (knowledges s).
Proof.
  unfold member_ids. run_router.
  destruct (files s !! fid) as [f|]; simpl; [|by left].
  destruct (truthy_dict (file_data f)); simpl; [|by left].
  destruct ix as [e|]; simpl; [by left|].
  destruct (knowledges s !! id) as [k|] eqn:Hk; simpl; [|by left].
  destruct (decide (fid ∈ get_file_ids (data_or_empty (k_data k)))) as [Hin|Hin].
  - rewrite (bool_decide_false (fid ∉ _)) by auto. simpl. by left.
  - rewrite (bool_decide_true (fid ∉ _)) by done. simpl. rewrite Hk. simpl.
    right. exists k. done.
Qed.

Lemma remove_file_knowledges (id fid : string) (s : St) :
  knowledges (snd (run (remove_file_from_knowledge_by_id id fid) s)) = knowledges s \/
  exists k, knowledges s !! id = Some k /\
    knowledges (snd (run (remove_file_from_knowledge_by_id id fid) s))
    = <[id := mkKnowledge (k_id k) (k_user_id k)
                (Some (mkKData (Some (py_list_remove fid (member_ids k)))))]> (knowledges s).
Proof.
  unfold member_ids. run_router.
  destruct (knowledges s !! id) as [k|] eqn:Hk;
    destruct (files s !! fid) as [f|]; simpl; try by left.
  destruct (decide (fid ∈ get_file_ids (data_or_empty (k_data k)))) as [Hin|Hin].
  - rewrite (bool_decide_true (fid ∈ _)) by done. simpl. rewrite Hk. simpl.
    right. exists k. done.
  - rewrite (bool_decide_false (fid ∈ _)) by done. simpl. by left.
Qed.

Lemma I2_insert (s : St) (ks : gmap string KnowledgeModel) (id : string) (k : KnowledgeModel) :
  I2 s -> ks = <[id := k]> (knowledges s) -> NoDup (member_ids k) ->
  forall id' k', ks !! id' = Some k' -> NoDup (member_ids k').
Proof.
  intros HI -> Hk id' k' Hl. apply lookup_insert_Some in Hl as [[_ <-]|[_ Hl]].
  - done.
  - by apply (HI id').
Qed.

(** C5: addFile, removeFile and deleteCollection preserve invariant I2 (no
    duplicate in any file_ids); and adding a file that is already a member
    leaves the knowledge records unchanged and, once the file is processed
    and indexing succeeds, fails with the [DEFAULT("file_id")] conflict. *)
Theorem synchronizer_preserves_I2 (ix : option string) (id fid : string) (s : St) :
  I2 s ->
  I2 (snd (run (add_file_to_knowledge_by_id ix id fid) s)) /\
  I2 (snd (run (remove_file_from_knowledge_by_id id fid) s)) /\
  I2 (snd (run (delete_knowledge_by_id id) s)) /\
  (forall k, knowledges s !! id = Some k -> fid ∈ member_ids k ->
     knowledges (snd (run (add_file_to_knowledge_by_id ix id fid) s)) = knowledges s /\
     (reaches_indexing s fid = true -> ix = None ->
        fst (run (add_file_to_knowledge_by_id ix id fid) s)
        = inr (HTTPException HTTP_400_BAD_REQUEST (DEFAULT "file_id")))).
Proof.
  intros HI. split; [|split; [|split]].
  - destruct (add_file_knowledges ix id fid s) as [Heq|[k [Hk [Hn Heq]]]].
    + intros id' k'. rewrite Heq. apply HI.
    + unfold I2. eapply I2_insert; [exact HI|exact Heq|].
      unfold member_ids at 1. simpl. apply NoDup_app. split; [by apply (HI id)|].
      split; [|apply NoDup_singleton]. intros x Hx. rewrite list_elem_of_singleton.
      intros ->. done.
  - destruct (remove_file_knowledges id fid s) as [Heq|[k [Hk Heq]]].
    + intros id' k'. rewrite Heq. apply HI.
    + unfold I2. eapply I2_insert; [exact HI|exact Heq|].
      unfold member_ids at 1. simpl.
      eapply sublist_NoDup; [by apply (HI id)|apply py_list_remove_sublist].
  - intros id' k'. run_router. rewrite lookup_delete_Some. intros [_ Hl].
    by apply (HI id').
  - intros k Hk Hin. unfold reaches_indexing, member_ids in *. run_router.
    destruct (files s !! fid) as [f|]; simpl; [|split; [done|discriminate]].
    destruct (truthy_dict (file_data f)); simpl; [|split; [done|discriminate]].
    destruct ix as [e|]; simpl; [split; [done|discriminate]|].
    rewrite Hk. simpl.
    rewrite (bool_decide_false (fid ∉ _)) by auto. simpl. done.
Qed.

Lemma synchronizer_preserves_I2_witness :
  I2 (st0 {[ "k1" := k1 ["f1"] ]}) /\
  I2 (snd (run (add_file_to_knowledge_by_id None "k1" "f1") (st0 {[ "k1" := k1 ["f1"] ]}))) /\
  I2 (snd (run (remove_file_from_knowledge_by_id "k1" "f1") (st0 {[ "k1" := k1 ["f1"] ]}))) /\
  I2 (snd (run (delete_knowledge_by_id "k1") (st0 {[ "k1" := k1 ["f1"] ]}))) /\
  (forall k, knowledges (st0 {[ "k1" := k1 ["f1"] ]}) !! "k1" = Some k -> "f1" ∈ member_ids k ->
     knowledges (snd (run (add_file_to_knowledge_by_id None "k1" "f1") (st0 {[ "k1" := k1 ["f1"] ]})))
     = knowledges (st0 {[ "k1" := k1 ["f1"] ]}) /\
     (reaches_indexing (st0 {[ "k1" := k1 ["f1"] ]}) "f1" = true -> None = @None string ->
        fst (run (add_file_to_knowledge_by_id None "k1" "f1") (st0 {[ "k1" := k1 ["f1"] ]}))
        = inr (HTTPException HTTP_400_BAD_REQUEST (DEFAULT "file_id")))).
Proof.
  assert (HI : I2 (st0 {[ "k1" := k1 ["f1"] ]})).
  { intros id k. simpl. rewrite lookup_singleton_Some. intros [_ <-].
    apply NoDup_singleton. }
  split; [exact HI|].
  exact (synchronizer_preserves_I2 None "k1" "f1" (st0 {[ "k1" := k1 ["f1"] ]}) HI).
Defined.

(** C6: deleteCollection first asks the vector database to drop the
    collection, then deletes the knowledge record, and returns whether a
    record existed; it never raises, and a second deletion of the same id
    returns false. *)
Theorem delete_knowledge_twice (id : string) (s : St) :
  let (r1, s1) := run (delete_knowledge_by_id id) s in
  let (r2, s2) := run (delete_knowledge_by_id id) s1 in
  r1 = inl (bool_decide (is_Some (knowledges s !! id))) /\
  r2 = inl false /\
  calls s1 = (calls s ++ [Call_vector_delete_collection id; Call_knowledges_delete id])%list /\
  knowledges s1 = delete id (knowledges s) /\
  (forall e, e ∈ vectors s1 -> e.1 <> id).
Proof.
  run_router. repeat split.
  - rewrite lookup_delete_eq. reflexivity.
  - rewrite <- app_assoc. reflexivity.
  - intros e. rewrite elem_of_filter. intros [? _]. done.
Qed.

(** C9: when the file exists and is processed and the collection exists and
    already lists the file, addFile runs the indexing call before the
    membership check. If indexing succeeds, the call fails with the
    [DEFAULT("file_id")] conflict and the vector index keeps the new entry;
    if indexing fails, the call fails with the indexing error [str(e)]
    instead. Either way only the indexing call was made. *)
Theorem add_file_member_conflict_after_indexing (ix : option string) (id fid : string)
    (s : St) (k : KnowledgeModel) :
  reaches_indexing s fid = true -> knowledges s !! id = Some k -> fid ∈ member_ids k ->
  (ix = None ->
   run (add_file_to_knowledge_by_id ix id fid) s
   = (inr (HTTPException HTTP_400_BAD_REQUEST (DEFAULT "file_id")),
      mkSt (knowledges s) (files s) (blobs s) ({[ (id, fid) ]} ∪ vectors s)
           (calls s ++ [Call_process_file fid id])%list)) /\
  (forall e, ix = Some e ->
   run (add_file_to_knowledge_by_id ix id fid) s
   = (inr (HTTPException HTTP_400_BAD_REQUEST (Text e)),
      mkSt (knowledges s) (files s) (blobs s) (vectors s)
           (calls s ++ [Call_process_file fid id])%list)).
Proof.
  unfold reaches_indexing, member_ids. intros Hr Hk Hin. run_router.
  destruct (files s !! fid) as [f|]; [|discriminate].
  rewrite Hr. simpl. split.
  - intros ->. simpl. rewrite Hk. simpl.
    rewrite (bool_decide_false (fid ∉ _)) by auto. done.
  - intros e ->. done.
Qed.

Lemma add_file_member_conflict_after_indexing_witness :
  run (add_file_to_knowledge_by_id None "k1" "f1" ) (st0 {[ "k1" := k1 ["f1"] ]})
  = (inr (HTTPException HTTP_400_BAD_REQUEST (DEFAULT "file_id")),
     mkSt (knowledges (st0 {[ "k1" := k1 ["f1"] ]})) (files (st0 {[ "k1" := k1 ["f1"] ]}))
          (blobs (st0 {[ "k1" := k1 ["f1"] ]}))
          ({[ ("k1", "f1") ]} ∪ vectors (st0 {[ "k1" := k1 ["f1"] ]}))
          (calls (st0 {[ "k1" := k1 ["f1"] ]}) ++ [Call_process_file "f1" "k1"])%list).
Proof.
  apply (add_file_member_conflict_after_indexing None "k1" "f1"
           (st0 {[ "k1" := k1 ["f1"] ]}) (k1 ["f1"]));
    [reflexivity|reflexivity| |reflexivity].
  unfold member_ids. simpl. set_solver.
Defined.

(** C9, counterexample: re-adding a processed file that collection k1
    already lists, with an indexing call that fails with ["boom"], does not
    give the conflict: the call fails with the indexing error. *)
Lemma add_file_member_indexing_failure_not_conflict :
  fst (run (add_file_to_knowledge_by_id (Some "boom") "k1" "f1") (st0 {[ "k1" := k1 ["f1"] ]}))
  = inr (HTTPException HTTP_400_BAD_REQUEST (Text "boom")) /\
  fst (run (add_file_to_knowledge_by_id (Some "boom") "k1" "f1") (st0 {[ "k1" := k1 ["f1"] ]}))
  <> inr (HTTPException HTTP_400_BAD_REQUEST (DEFAULT "file_id")).
Proof.
  split; [reflexivity|]. vm_compute. discriminate.
Qed.

(* ------------------------------------------------------------------ *)
(** ** S3StorageProvider *)

Lemma string_length_append (a b : string) :
  String.length (a +:+ b) = String.length a + String.length b.
Proof. induction a as [|c a IH]; simpl; [reflexivity|by rewrite IH]. Qed.

(** C7: the locator returned by upload_file does not always parse back to
    the key it wrote. With the filename ["a//b"] the split on ["//"] stops at
    the filename's own ["//"], get_file looks up key ["uploads/a"] and fails;
    with an empty bucket prefix the key ["/f.txt"] gives the locator
    ["s3://bucket//f.txt"], whose parse fails to unpack. *)
Lemma upload_get_file_roundtrip_breaks :
  (match S3.upload_file S3.prov None S3.hello "a//b" S3.empty_s3 with
   | (inl (bs, loc), st) =>
       bs = S3.hello /\ loc = "s3://bucket/uploads/a//b" /\
       S3.objects st !! ("bucket", "uploads/a//b") = Some S3.hello /\
       S3.parse_file_path loc = Some ("bucket", "uploads/a") /\
       exists m, fst (S3.get_file S3.prov None loc st) = inr (S3.RuntimeError m)
   | _ => False
   end) /\
  (match S3.upload_file (S3.mkProvider "bucket" "") None S3.hello "f.txt" S3.empty_s3 with
   | (inl (bs, loc), st) =>
       bs = S3.hello /\ loc = "s3://bucket//f.txt" /\
       S3.objects st !! ("bucket", "/f.txt") = Some S3.hello /\
       S3.parse_file_path loc = None /\
       exists m, fst (S3.get_file (S3.mkProvider "bucket" "") None loc st) = inr (S3.RuntimeError m)
   | _ => False
   end).
Proof.
  split; vm_compute; (split; [reflexivity|]); (split; [reflexivity|]);
    (split; [reflexivity|]); (split; [reflexivity|]); eexists; reflexivity.
Qed.

(** C8: upload_file raises the EMPTY_CONTENT ValueError exactly when the
    content is empty; for non-empty content it writes the object under
    ["{bucket_prefix}/{filename}"] and returns the original bytes with the
    locator when the client succeeds, and raises a RuntimeError with no write
    when the client fails. *)
Theorem upload_file_contract (self : S3.S3StorageProvider) (client : S3.client_outcome)
    (contents : S3.bytes) (filename : string) (st : S3.S3St) :
  (fst (S3.upload_file self client contents filename st)
     = inr (S3.ValueError S3.EMPTY_CONTENT) <-> contents = []) /\
  (contents <> [] -> client = None ->
     S3.upload_file self client contents filename st
     = (inl (contents, "s3://" +:+ S3.bucket_name self +:+ "/" +:+ S3.bucket_prefix self
                         +:+ "/" +:+ filename),
        S3.mkS3St (<[(S3.bucket_name self, S3.bucket_prefix self +:+ "/" +:+ filename)
                     := contents]> (S3.objects st)) (S3.local_files st))) /\
  (forall e, contents <> [] -> client = Some e ->
     S3.upload_file self client contents filename st
     = (inr (S3.RuntimeError ("Error uploading file to S3: " +:+ e)), st)).
Proof.
  unfold S3.upload_file. split; [|split].
  - destruct contents as [|b bs]; [done|].
    destruct client; simpl; split; discriminate.
  - intros Hne ->. destruct contents as [|b bs]; done.
  - intros e Hne ->. destruct contents as [|b bs]; done.
Qed.

Lemma upload_file_contract_witness :
  (S3.hello <> [] -> @None string = None ->
     S3.upload_file S3.prov None S3.hello "f.txt" S3.empty_s3
     = (inl (S3.hello, "s3://bucket/uploads/f.txt"),
        S3.mkS3St (<[("bucket", "uploads/f.txt") := S3.hello]> ∅) ∅)) /\
  S3.upload_file S3.prov (Some "denied") S3.hello "f.txt" S3.empty_s3
  = (inr (S3.RuntimeError "Error uploading file to S3: denied"), S3.empty_s3).
Proof.
  split.
  - exact (proj1 (proj2 (upload_file_contract S3.prov None S3.hello "f.txt" S3.empty_s3))).
  - apply (proj2 (proj2 (upload_file_contract S3.prov (Some "denied") S3.hello "f.txt" S3.empty_s3)));
      [discriminate|reflexivity].
Defined.

(** C10: delete_file deletes the object whose key is its argument, in the
    configured bucket, without parsing it; the locator returned by
    upload_file is never the key upload_file wrote, so passing the locator
    to delete_file leaves the uploaded object in place. *)
Theorem delete_file_key_mismatch (self : S3.S3StorageProvider) (contents bs : S3.bytes)
    (filename loc : string) (st : S3.S3St) :
  fst (S3.upload_file self None contents filename st) = inl (bs, loc) ->
  (forall name st', S3.delete_file self None name st'
     = (inl tt, S3.mkS3St (delete (S3.bucket_name self, name) (S3.objects st'))
                          (S3.local_files st'))) /\
  loc <> S3.bucket_prefix self +:+ "/" +:+ filename /\
  S3.objects (snd (S3.delete_file self None loc (snd (S3.upload_file self None contents filename st))))
    !! (S3.bucket_name self, S3.bucket_prefix self +:+ "/" +:+ filename) = Some contents.
Proof.
  unfold S3.upload_file. destruct contents as [|b cs]; [discriminate|].
  simpl. intros Hr. injection Hr as <- <-.
  assert (Hne : "s3://" +:+ S3.bucket_name self +:+ "/" +:+ S3.bucket_prefix self +:+ "/" +:+ filename
                <> S3.bucket_prefix self +:+ "/" +:+ filename).
  { intros Heq. apply (f_equal String.length) in Heq.
    rewrite !string_length_append in Heq. simpl in Heq. lia. }
  split; [done|]. split; [done|].
  rewrite lookup_delete_ne.
  - apply lookup_insert_eq.
  - intros [=]. done.
Qed.

Lemma delete_file_key_mismatch_witness :
  (forall name st', S3.delete_file S3.prov None name st'
     = (inl tt, S3.mkS3St (delete ("bucket", name) (S3.objects st')) (S3.local_files st'))) /\
  "s3://bucket/uploads/f.txt" <> "uploads/f.txt" /\
  S3.objects (snd (S3.delete_file S3.prov None "s3://bucket/uploads/f.txt"
                     (snd (S3.upload_file S3.prov None S3.hello "f.txt" S3.empty_s3))))
    !! ("bucket", "uploads/f.txt") = Some S3.hello.
Proof.
  apply (delete_file_key_mismatch S3.prov S3.hello S3.hello "f.txt" "s3://bucket/uploads/f.txt"
           S3.empty_s3).
  reflexivity.
Defined.

(* ------------------------------------------------------------------ *)
(** ** S3StorageProvider: locators, round trips, bulk deletion *)

Lemma string_app_cons (c : Ascii.ascii) (a b : string) :
  String c a +:+ b = String c (a +:+ b).
Proof. reflexivity. Qed.

Lemma string_app_nil_l (b : string) : EmptyString +:+ b = b.
Proof. reflexivity. Qed.

Lemma string_append_nil_r (a : string) : a +:+ EmptyString = a.
Proof.
  induction a as [|c a IH]; [reflexivity|]. by rewrite string_app_cons, IH.
Qed.

Lemma string_append_assoc (a b c : string) : (a +:+ b) +:+ c = a +:+ (b +:+ c).
Proof.
  induction a as [|x a IH]; [reflexivity|]. by rewrite !string_app_cons, IH.
Qed.

Lemma substring_0_length (k : string) : String.substring 0 (String.length k) k = k.
Proof. induction k as [|c k IH]; simpl; congruence. Qed.

Lemma py_split_go_no_occurrence (sep s cur : string) :
  S3.occurs sep s = false -> S3.py_split_go sep s 0 cur = [cur +:+ s].
Proof.
  revert cur. induction s as [|c s IH]; intros cur Hocc; simpl in *.
  - by rewrite string_append_nil_r.
  - apply orb_false_iff in Hocc as [Hp Ho]. rewrite Hp, IH by done.
    by rewrite string_append_assoc.
Qed.

Lemma prefix_single_char (d c : Ascii.ascii) (x y : string) :
  String.prefix (String d EmptyString) (String c x)
  = String.prefix (String d EmptyString) (String c y).
Proof. simpl. destruct (Ascii.ascii_dec d c); destruct x, y; reflexivity. Qed.

Lemma py_split1_go_first_slash (b k cur : string) :
  S3.occurs "/" b = false ->
  S3.py_split1_go "/" (b +:+ "/" +:+ k) cur = [cur +:+ b; k].
Proof.
  revert cur. induction b as [|c b IH]; intros cur Hb.
  - rewrite string_app_nil_l, string_app_cons, string_app_nil_l. simpl.
    rewrite string_append_nil_r, Nat.sub_0_r, substring_0_length. by destruct k.
  - rewrite string_app_cons. cbn [S3.occurs] in Hb.
    apply orb_false_iff in Hb as [Hp Ho]. cbn [S3.py_split1_go].
    rewrite (prefix_single_char _ _ _ b), Hp, IH by done.
    by rewrite string_append_assoc, string_app_cons, string_app_nil_l.
Qed.

Lemma py_split_go_scheme (x : string) :
  S3.py_split_go "//" ("s3:" +:+ x) 0 "" = S3.py_split_go "//" x 0 "s3:".
Proof. reflexivity. Qed.

Lemma py_split_go_sep_here (r cur : string) :
  S3.py_split_go "//" ("//" +:+ r) 0 cur = cur :: S3.py_split_go "//" r 0 "".
Proof. destruct r; reflexivity. Qed.

(** Parsing a locator ["s3://{bucket}/{key}"] the way get_file and
    as_local_file do gives back [bucket] and [key] when the bucket has no
    ['/'] and ["//"] does not occur after the scheme. *)
Lemma parse_file_path_locator (b k : string) :
  S3.occurs "/" b = false ->
  S3.occurs "//" (b +:+ "/" +:+ k) = false ->
  S3.parse_file_path ("s3://" +:+ b +:+ "/" +:+ k) = Some (b, k).
Proof.
  intros Hb Hocc. unfold S3.parse_file_path, S3.py_split.
  change ("s3://" +:+ b +:+ "/" +:+ k) with ("s3:" +:+ ("//" +:+ (b +:+ "/" +:+ k))).
  rewrite py_split_go_scheme, py_split_go_sep_here, py_split_go_no_occurrence by done.
  rewrite string_app_nil_l. unfold S3.py_split1.
  rewrite py_split1_go_first_slash by done. reflexivity.
Qed.

(** Round trip through get_file: when the bucket name has no ['/'] and
    ["//"] does not occur in ["{bucket}/{prefix}/{filename}"], get_file on the
    locator returned by upload_file yields the uploaded bytes, whatever
    provider configuration reads it (get_file takes the bucket from the
    locator). *)
Theorem upload_get_file_roundtrip (self self' : S3.S3StorageProvider)
    (contents : S3.bytes) (filename : string) (st : S3.S3St) :
  S3.occurs "/" (S3.bucket_name self) = false ->
  S3.occurs "//" (S3.bucket_name self +:+ "/" +:+ S3.bucket_prefix self +:+ "/" +:+ filename)
    = false ->
  contents <> [] ->
  match S3.upload_file self None contents filename st with
  | (inl (bs, loc), st') => bs = contents /\ fst (S3.get_file self' None loc st') = inl contents
  | _ => False
  end.
Proof.
  intros Hb Hocc Hne. unfold S3.upload_file.
  destruct contents as [|x xs]; [done|]. split; [done|].
  unfold S3.get_file. rewrite parse_file_path_locator by done.
  simpl. by rewrite lookup_insert_eq.
Qed.

Lemma upload_get_file_roundtrip_witness :
  match S3.upload_file S3.prov None S3.hello "f.txt" S3.empty_s3 with
  | (inl (bs, loc), st') => bs = S3.hello /\ fst (S3.get_file S3.prov None loc st') = inl S3.hello
  | _ => False
  end.
Proof.
  apply (upload_get_file_roundtrip S3.prov S3.prov S3.hello "f.txt" S3.empty_s3);
    [reflexivity|reflexivity|discriminate].
Defined.

(** Round trip through as_local_file: under the same conditions, as_local_file
    on the returned locator writes the uploaded bytes to
    ["{S3_LOCAL_CACHE_DIR}/{prefix}/{filename}"] and returns that path,
    leaving the object store as it is. *)
Theorem upload_as_local_file_roundtrip (self self' : S3.S3StorageProvider)
    (contents : S3.bytes) (filename : string) (st : S3.S3St) :
  S3.occurs "/" (S3.bucket_name self) = false ->
  S3.occurs "//" (S3.bucket_name self +:+ "/" +:+ S3.bucket_prefix self +:+ "/" +:+ filename)
    = false ->
  contents <> [] ->
  match S3.upload_file self None contents filename st with
  | (inl (_, loc), st') =>
      let path := S3.S3_LOCAL_CACHE_DIR +:+ "/" +:+ S3.bucket_prefix self +:+ "/" +:+ filename in
      S3.as_local_file self' None loc st'
      = (inl path, S3.mkS3St (S3.objects st') (<[path := contents]> (S3.local_files st')))
  | _ => False
  end.
Proof.
  intros Hb Hocc Hne. unfold S3.upload_file.
  destruct contents as [|x xs]; [done|].
  unfold S3.as_local_file. rewrite parse_file_path_locator by done.
  simpl. by rewrite lookup_insert_eq.
Qed.

Lemma upload_as_local_file_roundtrip_witness :
  match S3.upload_file S3.prov None S3.hello "f.txt" S3.empty_s3 with
  | (inl (_, loc), st') =>
      let path := S3.S3_LOCAL_CACHE_DIR +:+ "/" +:+ "uploads" +:+ "/" +:+ "f.txt" in
      S3.as_local_file S3.prov None loc st'
      = (inl path, S3.mkS3St (S3.objects st') (<[path := S3.hello]> (S3.local_files st')))
  | _ => False
  end.
Proof.
  apply (upload_as_local_file_roundtrip S3.prov S3.prov S3.hello "f.txt" S3.empty_s3);
    [reflexivity|reflexivity|discriminate].
Defined.

(** Deleting the key upload_file wrote (["{prefix}/{filename}"], not the
    locator) makes the returned locator unretrievable: get_file then raises a
    RuntimeError. *)
Theorem delete_written_key_get_file_fails (self : S3.S3StorageProvider)
    (contents : S3.bytes) (filename : string) (st : S3.S3St) :
  S3.occurs "/" (S3.bucket_name self) = false ->
  S3.occurs "//" (S3.bucket_name self +:+ "/" +:+ S3.bucket_prefix self +:+ "/" +:+ filename)
    = false ->
  contents <> [] ->
  match S3.upload_file self None contents filename st with
  | (inl (_, loc), st') =>
      exists m, fst (S3.get_file self None loc
                  (snd (S3.delete_file self None (S3.bucket_prefix self +:+ "/" +:+ filename) st')))
                = inr (S3.RuntimeError m)
  | _ => False
  end.
Proof.
  intros Hb Hocc Hne. unfold S3.upload_file.
  destruct contents as [|x xs]; [done|].
  unfold S3.get_file. rewrite parse_file_path_locator by done.
  simpl. rewrite lookup_delete_eq. eexists. reflexivity.
Qed.

Lemma delete_written_key_get_file_fails_witness :
  match S3.upload_file S3.prov None S3.hello "f.txt" S3.empty_s3 with
  | (inl (_, loc), st') =>
      exists m, fst (S3.get_file S3.prov None loc
                  (snd (S3.delete_file S3.prov None ("uploads" +:+ "/" +:+ "f.txt") st')))
                = inr (S3.RuntimeError m)
  | _ => False
  end.
Proof.
  apply (delete_written_key_get_file_fails S3.prov S3.hello "f.txt" S3.empty_s3);
    [reflexivity|reflexivity|discriminate].
Defined.

Lemma lookup_foldl_delete_notin (bn : string) (ks : list string)
    (m : gmap (string * string) S3.bytes) (i : string * string) :
  (forall k, k ∈ ks -> i <> (bn, k)) ->
  foldl (fun m k => delete (bn, k) m) m ks !! i = m !! i.
Proof.
  revert m. induction ks as [|k ks IH]; intros m Hn; simpl; [done|].
  rewrite IH by set_solver. apply lookup_delete_ne. intros Heq. apply (Hn k); set_solver.
Qed.

Lemma lookup_foldl_delete_in (bn : string) (ks : list string)
    (m : gmap (string * string) S3.bytes) (k : string) :
  k ∈ ks -> foldl (fun m k => delete (bn, k) m) m ks !! (bn, k) = None.
Proof.
  revert m. induction ks as [|x ks IH]; intros m Hk; simpl; [set_solver|].
  destruct (decide (k ∈ ks)) as [Hin|Hin]; [by apply IH|].
  assert (k = x) as -> by set_solver.
  rewrite lookup_foldl_delete_notin; [apply lookup_delete_eq|].
  intros k' Hk' [=]. subst. done.
Qed.

Lemma elem_of_prefixed_keys (bucket prefix : string) (objs : gmap (string * string) S3.bytes)
    (k : string) :
  k ∈ S3.prefixed_keys bucket prefix objs <->
  String.prefix prefix k = true /\ is_Some (objs !! (bucket, k)).
Proof.
  unfold S3.prefixed_keys. rewrite list_elem_of_omap. split.
  - intros [[[b k'] v] [Hin Hf]].
    destruct (bool_decide (b = bucket)) eqn:Hb; simpl in Hf; [|discriminate].
    destruct (String.prefix prefix k') eqn:Hp; [|discriminate].
    injection Hf as <-. apply bool_decide_eq_true in Hb as ->.
    apply elem_of_map_to_list in Hin. split; [done|by eexists].
  - intros [Hp [v Hv]]. exists ((bucket, k), v).
    split; [by apply elem_of_map_to_list|].
    rewrite bool_decide_true by done. simpl. by rewrite Hp.
Qed.

Lemma NoDup_prefixed_keys (bucket prefix : string) (objs : gmap (string * string) S3.bytes) :
  NoDup (S3.prefixed_keys bucket prefix objs).
Proof.
  unfold S3.prefixed_keys. pose proof (NoDup_fst_map_to_list objs) as Hnd.
  induction (map_to_list objs) as [|[[b k] v] l IH]; simpl; [constructor|].
  apply NoDup_cons in Hnd as [Hnot Hnd].
  destruct (bool_decide (b = bucket) && String.prefix prefix k) eqn:Hc; [|by apply IH].
  apply andb_prop in Hc as [Hb _]. apply bool_decide_eq_true in Hb as ->.
  constructor; [|by apply IH].
  rewrite list_elem_of_omap. intros [[[b' k'] v'] [Hin Hf]].
  destruct (bool_decide (b' = bucket)) eqn:Hb'; simpl in Hf; [|discriminate].
  destruct (String.prefix prefix k'); [|discriminate].
  injection Hf as ->. apply bool_decide_eq_true in Hb' as ->.
  apply Hnot. apply list_elem_of_fmap. by exists ((bucket, k), v').
Qed.

Lemma elem_of_list_objects_v2 (bucket prefix : string) (objs : gmap (string * string) S3.bytes)
    (n : nat) (k : string) :
  k ∈ take n (S3.list_objects_v2 bucket prefix objs) ->
  String.prefix prefix k = true /\ is_Some (objs !! (bucket, k)).
Proof.
  intros Hk. apply elem_of_prefixed_keys.
  rewrite <- (merge_sort_Permutation String.le).
  unfold S3.list_objects_v2 in Hk. rewrite take_take in Hk.
  apply elem_of_take in Hk as [i [Hi _]]. by eapply list_elem_of_lookup_2.
Qed.

(** delete_all_files never touches an object outside the configured bucket
    or whose key does not start with the configured prefix, whether the
    calls succeed or fail part way. *)
Theorem delete_all_files_outside_untouched (self : S3.S3StorageProvider)
    (client : S3.delete_all_outcome) (st : S3.S3St) (b k : string) :
  b <> S3.bucket_name self \/ String.prefix (S3.bucket_prefix self) k = false ->
  S3.objects (snd (S3.delete_all_files self client st)) !! (b, k) = S3.objects st !! (b, k).
Proof.
  intros Hout.
  assert (Hn : forall n k', k' ∈ take n (S3.list_objects_v2 (S3.bucket_name self)
                                          (S3.bucket_prefix self) (S3.objects st)) ->
               (b, k) <> (S3.bucket_name self, k')).
  { intros n k' Hk' [= -> ->]. apply elem_of_list_objects_v2 in Hk' as [Hp _].
    destruct Hout as [Hb|Hp']; [done|congruence]. }
  unfold S3.delete_all_files. destruct client as [[n e]|]; simpl.
  - by apply lookup_foldl_delete_notin, (Hn n).
  - apply lookup_foldl_delete_notin. intros k' Hk'.
    apply (Hn 1000). by rewrite take_ge by (unfold S3.list_objects_v2; rewrite length_take; lia).
Qed.

Lemma delete_all_files_outside_untouched_witness :
  S3.objects (snd (S3.delete_all_files S3.prov None
    (S3.mkS3St (<[("bucket", "other/x") := S3.hello]> (<[("bucket", "uploads/f") := S3.hello]> ∅)) ∅)))
    !! ("bucket", "other/x")
  = Some S3.hello.
Proof.
  rewrite (delete_all_files_outside_untouched S3.prov None
    (S3.mkS3St (<[("bucket", "other/x") := S3.hello]> (<[("bucket", "uploads/f") := S3.hello]> ∅)) ∅)
    "bucket" "other/x") by (right; reflexivity).
  reflexivity.
Defined.

(** When at most 1000 objects of the bucket have the prefix, a successful
    delete_all_files removes every one of them. *)
Theorem delete_all_files_clears_small_bucket (self : S3.S3StorageProvider) (st : S3.S3St) :
  length (S3.prefixed_keys (S3.bucket_name self) (S3.bucket_prefix self) (S3.objects st)) <= 1000 ->
  fst (S3.delete_all_files self None st) = inl tt /\
  forall k, String.prefix (S3.bucket_prefix self) k = true ->
    S3.objects (snd (S3.delete_all_files self None st)) !! (S3.bucket_name self, k) = None.
Proof.
  intros Hlen. split; [reflexivity|]. intros k Hp. simpl.
  destruct (S3.objects st !! (S3.bucket_name self, k)) eqn:Hk.
  - apply lookup_foldl_delete_in. unfold S3.list_objects_v2.
    rewrite take_ge by (rewrite (merge_sort_Permutation String.le); lia).
    rewrite (merge_sort_Permutation String.le). apply elem_of_prefixed_keys. by split.
  - rewrite lookup_foldl_delete_notin; [done|]. intros k' Hk' [= <-].
    rewrite <- (take_ge (S3.list_objects_v2 _ _ _) 1000) in Hk' by (unfold S3.list_objects_v2; rewrite length_take; lia).
    apply elem_of_list_objects_v2 in Hk' as [_ [v Hv]]. congruence.
Qed.

Lemma delete_all_files_clears_small_bucket_witness :
  fst (S3.delete_all_files S3.prov None
         (S3.mkS3St (<[("bucket", "uploads/f") := S3.hello]> ∅) ∅)) = inl tt /\
  forall k, String.prefix "uploads" k = true ->
    S3.objects (snd (S3.delete_all_files S3.prov None
         (S3.mkS3St (<[("bucket", "uploads/f") := S3.hello]> ∅) ∅))) !! ("bucket", k) = None.
Proof.
  apply (delete_all_files_clears_small_bucket S3.prov
           (S3.mkS3St (<[("bucket", "uploads/f") := S3.hello]> ∅) ∅)).
  vm_compute. lia.
Defined.

(** delete_all_files reads a single listing page: when more than 1000
    objects of the bucket have the prefix, a successful call leaves at least
    one of them in place. *)
Theorem delete_all_files_single_page (self : S3.S3StorageProvider) (st : S3.S3St) :
  1000 < length (S3.prefixed_keys (S3.bucket_name self) (S3.bucket_prefix self) (S3.objects st)) ->
  exists k, String.prefix (S3.bucket_prefix self) k = true /\
    is_Some (S3.objects (snd (S3.delete_all_files self None st)) !! (S3.bucket_name self, k)).
Proof.
  intros Hlen.
  set (P := S3.prefixed_keys (S3.bucket_name self) (S3.bucket_prefix self) (S3.objects st)) in *.
  set (L := S3.list_objects_v2 (S3.bucket_name self) (S3.bucket_prefix self) (S3.objects st)).
  destruct (decide (Forall (fun k => k ∈ L) P)) as [Hall|Hnot].
  - exfalso. rewrite Forall_forall in Hall.
    pose proof (submseteq_length _ _ (NoDup_submseteq _ _ (NoDup_prefixed_keys _ _ _) Hall)).
    assert (length L <= 1000) by (unfold L, S3.list_objects_v2; rewrite length_take; lia).
    unfold P in *. lia.
  - apply not_Forall_Exists in Hnot; [|apply _].
    apply Exists_exists in Hnot as [k [HkP HkL]].
    apply elem_of_prefixed_keys in HkP as [Hp Hs].
    exists k. split; [done|]. simpl.
    rewrite lookup_foldl_delete_notin; [done|]. intros k' Hk' [= <-]. done.
Qed.

Lemma delete_all_files_single_page_witness :
  exists k, String.prefix "uploads" k = true /\
    is_Some (S3.objects (snd (S3.delete_all_files S3.prov None (S3.mkS3St many_uploads ∅)))
               !! ("bucket", k)).
Proof.
  apply (delete_all_files_single_page S3.prov (S3.mkS3St many_uploads ∅)).
  vm_compute. lia.
Defined.

(* ------------------------------------------------------------------ *)
(** ** Knowledge router: reads and composition *)

Ltac run_reads :=
  unfold run, get_knowledge_items, get_knowledge_by_id, Knowledges_get_knowledge_by_id,
    Knowledges_get_knowledge_items, Files_get_files_by_ids, raise,
    mbind, M_bind, mret, M_ret; simpl.

(** The read endpoints never change a store. A missing non-empty id is
    reported as HTTP 401 NOT_FOUND by both, and an empty id string on the
    list endpoint is treated like no id: it returns the full listing. *)
Theorem read_endpoints_behaviour (s : St) (i : string) :
  snd (run (get_knowledge_items (Some i)) s) = s /\
  snd (run (get_knowledge_items None) s) = s /\
  snd (run (get_knowledge_by_id i) s) = s /\
  run (get_knowledge_items (Some "")) s = run (get_knowledge_items None) s /\
  (i <> "" -> knowledges s !! i = None ->
     fst (run (get_knowledge_items (Some i)) s)
       = inr (HTTPException HTTP_401_UNAUTHORIZED NOT_FOUND) /\
     fst (run (get_knowledge_by_id i) s)
       = inr (HTTPException HTTP_401_UNAUTHORIZED NOT_FOUND)).
Proof.
  run_reads. split; [|split; [|split; [|split]]].
  - destruct i; simpl; [done|]. by destruct (knowledges s !! _).
  - done.
  - by destruct (knowledges s !! i).
  - done.
  - intros Hne Hk. destruct i as [|c i']; [done|]. simpl. by rewrite Hk.
Qed.

Lemma read_endpoints_behaviour_witness :
  fst (run (get_knowledge_items (Some "k9")) (st0 {[ "k1" := k1 [] ]}))
    = inr (HTTPException HTTP_401_UNAUTHORIZED NOT_FOUND) /\
  fst (run (get_knowledge_by_id "k9") (st0 {[ "k1" := k1 [] ]}))
    = inr (HTTPException HTTP_401_UNAUTHORIZED NOT_FOUND).
Proof.
  apply (read_endpoints_behaviour (st0 {[ "k1" := k1 [] ]}) "k9"); [discriminate|reflexivity].
Defined.

Lemma py_list_remove_app_notin (x : string) (l : list string) :
  x ∉ l -> py_list_remove x (l ++ [x])%list = l.
Proof.
  induction l as [|y l IH]; intros Hx; simpl.
  - by rewrite String.eqb_refl.
  - destruct (String.eqb_spec y x) as [->|Hne]; [set_solver|].
    rewrite IH by set_solver. done.
Qed.

Lemma py_list_remove_first (x : string) (l : list string) :
  x ∈ l -> exists l1 l2, l = (l1 ++ x :: l2)%list /\ (x ∉ l1) /\ py_list_remove x l = (l1 ++ l2)%list.
Proof.
  induction l as [|y l IH]; intros Hx; [set_solver|]. simpl.
  destruct (String.eqb_spec y x) as [->|Hne].
  - exists [], l. split; [done|]. split; [set_solver|done].
  - destruct IH as [l1 [l2 [-> [Hn Hr]]]]; [set_solver|].
    exists (y :: l1), l2. split; [done|]. split; [set_solver|]. by rewrite Hr.
Qed.

Lemma add_file_files_blobs (ix : option string) (id fid : string) (s : St) :
  files (snd (run (add_file_to_knowledge_by_id ix id fid) s)) = files s /\
  blobs (snd (run (add_file_to_knowledge_by_id ix id fid) s)) = blobs s.
Proof.
  run_router.
  destruct (files s !! fid) as [f|]; simpl; [|done].
  destruct (truthy_dict (file_data f)); simpl; [|done].
  destruct ix as [e|]; simpl; [done|].
  destruct (knowledges s !! id) as [k|] eqn:Hk; simpl; [|done].
  destruct (decide (fid ∈ get_file_ids (data_or_empty (k_data k)))) as [Hin|Hin].
  - rewrite (bool_decide_false (fid ∉ _)) by auto. done.
  - rewrite (bool_decide_true (fid ∉ _)) by done. simpl. rewrite Hk. done.
Qed.

Lemma remove_file_on_member (id fid : string) (s : St) (f : FileModel) (k : KnowledgeModel) :
  files s !! fid = Some f -> knowledges s !! id = Some k -> fid ∈ member_ids k ->
  let k' := mkKnowledge (k_id k) (k_user_id k)
              (Some (mkKData (Some (py_list_remove fid (member_ids k))))) in
  exists fs s',
    run (remove_file_from_knowledge_by_id id fid) s = (inl (mkResp k' fs), s') /\
    knowledges s' = <[id := k']> (knowledges s) /\ files s' = delete fid (files s).
Proof.
  intros Hf Hk Hin. unfold member_ids in *. run_router. rewrite Hk, Hf. simpl. rewrite Hf.
  simpl. rewrite (bool_decide_true (fid ∈ _)) by done. simpl. rewrite Hk. simpl.
  eexists _, _. done.
Qed.

(** A successful addFile appends file_id at the end of the collection's
    file_ids (which did not hold it), stores that record, returns it, and
    leaves the indexed entry in the vector index. *)
Theorem add_file_success (ix : option string) (id fid : string) (s s' : St)
    (r : KnowledgeFilesResponse) :
  run (add_file_to_knowledge_by_id ix id fid) s = (inl r, s') ->
  exists k, knowledges s !! id = Some k /\ (fid ∉ member_ids k) /\ ix = None /\
    resp_knowledge r = mkKnowledge (k_id k) (k_user_id k)
                         (Some (mkKData (Some (member_ids k ++ [fid])%list))) /\
    knowledges s' = <[id := resp_knowledge r]> (knowledges s) /\
    (id, fid) ∈ vectors s'.
Proof.
  unfold member_ids. run_router.
  destruct (files s !! fid) as [f|]; simpl; [|discriminate].
  destruct (truthy_dict (file_data f)); simpl; [|discriminate].
  destruct ix as [e|]; simpl; [discriminate|].
  destruct (knowledges s !! id) as [k|] eqn:Hk; simpl; [|discriminate].
  destruct (decide (fid ∈ get_file_ids (data_or_empty (k_data k)))) as [Hin|Hin].
  - rewrite (bool_decide_false (fid ∉ _)) by auto. simpl. discriminate.
  - rewrite (bool_decide_true (fid ∉ _)) by done. simpl. rewrite Hk. simpl.
    intros [= <- <-]. exists k. simpl. repeat split; [done..|set_solver].
Qed.

Lemma add_file_success_witness :
  exists k, knowledges (st0 {[ "k1" := k1 [] ]}) !! "k1" = Some k /\ ("f1" ∉ member_ids k) /\
    @None string = None /\
    resp_knowledge (mkResp (k1 ["f1"]) [f1])
      = mkKnowledge (k_id k) (k_user_id k) (Some (mkKData (Some (member_ids k ++ ["f1"])%list))) /\
    knowledges (snd (run (add_file_to_knowledge_by_id None "k1" "f1") (st0 {[ "k1" := k1 [] ]})))
      = <[ "k1" := resp_knowledge (mkResp (k1 ["f1"]) [f1]) ]> (knowledges (st0 {[ "k1" := k1 [] ]})) /\
    ("k1", "f1") ∈ vectors (snd (run (add_file_to_knowledge_by_id None "k1" "f1") (st0 {[ "k1" := k1 [] ]}))).
Proof.
  apply (add_file_success None "k1" "f1" (st0 {[ "k1" := k1 [] ]})). reflexivity.
Defined.

Lemma remove_file_files (id fid : string) (s : St) (f : FileModel) (k : KnowledgeModel) :
  files s !! fid = Some f -> knowledges s !! id = Some k ->
  files (snd (run (remove_file_from_knowledge_by_id id fid) s)) = delete fid (files s).
Proof.
  intros Hf Hk. run_router. rewrite Hk, Hf. simpl. rewrite Hf. simpl.
  destruct (decide (fid ∈ get_file_ids (data_or_empty (k_data k)))) as [Hin|Hin].
  - rewrite (bool_decide_true (fid ∈ _)) by done. simpl. rewrite Hk. done.
  - rewrite (bool_decide_false (fid ∈ _)) by done. done.
Qed.

(** A successful removeFile drops exactly the first occurrence of file_id
    from the collection's file_ids, stores and returns that record, and the
    file record is gone afterwards. *)
Theorem remove_file_success (id fid : string) (s s' : St) (r : KnowledgeFilesResponse) :
  run (remove_file_from_knowledge_by_id id fid) s = (inl r, s') ->
  exists k l1 l2, knowledges s !! id = Some k /\
    member_ids k = (l1 ++ fid :: l2)%list /\ (fid ∉ l1) /\
    member_ids (resp_knowledge r) = (l1 ++ l2)%list /\
    knowledges s' = <[id := resp_knowledge r]> (knowledges s) /\
    files s' !! fid = None.
Proof.
  intros H.
  destruct (knowledges s !! id) as [k|] eqn:Hk;
    destruct (files s !! fid) as [f|] eqn:Hf.
  - destruct (decide (fid ∈ member_ids k)) as [Hin|Hin].
    + destruct (remove_file_on_member id fid s f k Hf Hk Hin) as [fs [s'' [Hr [Hks Hfs]]]].
      rewrite Hr in H. injection H as <- <-.
      destruct (py_list_remove_first fid (member_ids k) Hin) as [l1 [l2 [Hl [Hn Hrm]]]].
      exists k, l1, l2. simpl. repeat split; [done..| |done|].
      * unfold member_ids at 1. simpl. done.
      * rewrite Hfs. apply lookup_delete_eq.
    + revert H. unfold member_ids in Hin. run_router. rewrite Hk, Hf. simpl. rewrite Hf.
      simpl. rewrite (bool_decide_false (fid ∈ _)) by done. discriminate.
  - revert H. run_router. rewrite Hk, Hf. discriminate.
  - revert H. run_router. rewrite Hk, Hf. simpl. discriminate.
  - revert H. run_router. rewrite Hk, Hf. discriminate.
Qed.

Lemma remove_file_success_witness :
  exists k l1 l2, knowledges (st0 {[ "k1" := k1 ["f2"; "f1"; "f1"] ]}) !! "k1" = Some k /\
    member_ids k = (l1 ++ "f1" :: l2)%list /\ ("f1" ∉ l1) /\
    member_ids (resp_knowledge (mkResp (k1 ["f2"; "f1"]) [f2])) = (l1 ++ l2)%list /\
    knowledges (snd (run (remove_file_from_knowledge_by_id "k1" "f1")
                        (st0 {[ "k1" := k1 ["f2"; "f1"; "f1"] ]})))
      = <[ "k1" := resp_knowledge (mkResp (k1 ["f2"; "f1"]) [f2]) ]>
          (knowledges (st0 {[ "k1" := k1 ["f2"; "f1"; "f1"] ]})) /\
    files (snd (run (remove_file_from_knowledge_by_id "k1" "f1")
                   (st0 {[ "k1" := k1 ["f2"; "f1"; "f1"] ]}))) !! "f1" = None.
Proof.
  apply (remove_file_success "k1" "f1" (st0 {[ "k1" := k1 ["f2"; "f1"; "f1"] ]})).
  reflexivity.
Defined.

(** Adding a file and then removing it again gives the collection back its
    original file_ids; the file record itself does not come back. *)
Theorem add_then_remove_roundtrip (ix : option string) (id fid : string) (s s1 : St)
    (r1 : KnowledgeFilesResponse) :
  run (add_file_to_knowledge_by_id ix id fid) s = (inl r1, s1) ->
  exists k r2 s2, knowledges s !! id = Some k /\
    run (remove_file_from_knowledge_by_id id fid) s1 = (inl r2, s2) /\
    member_ids (resp_knowledge r2) = member_ids k /\
    knowledges s2 = <[id := resp_knowledge r2]> (knowledges s) /\
    files s2 = delete fid (files s).
Proof.
  intros H.
  pose proof (add_file_files_blobs ix id fid s) as [Hfiles _].
  rewrite H in Hfiles. simpl in Hfiles.
  destruct (files s !! fid) as [f|] eqn:Hf.
  2:{ revert H. run_router. rewrite Hf. discriminate. }
  destruct (add_file_success ix id fid s s1 r1 H) as [k [Hk [Hn [-> [Hr [Hks _]]]]]].
  assert (Hk1 : knowledges s1 !! id = Some (resp_knowledge r1))
    by (rewrite Hks; apply lookup_insert_eq).
  assert (Hm1 : member_ids (resp_knowledge r1) = (member_ids k ++ [fid])%list)
    by (rewrite Hr; reflexivity).
  assert (Hin : fid ∈ member_ids (resp_knowledge r1))
    by (rewrite Hm1; set_solver).
  assert (Hf1 : files s1 !! fid = Some f) by (rewrite Hfiles; done).
  destruct (remove_file_on_member id fid s1 f (resp_knowledge r1) Hf1 Hk1 Hin)
    as [fs [s2 [Hr2 [Hks2 Hfs2]]]].
  eexists k, _, s2. split; [done|]. split; [exact Hr2|]. simpl.
  split; [|split].
  - unfold member_ids at 1. simpl. rewrite Hm1. by apply py_list_remove_app_notin.
  - rewrite Hks2, Hks. apply insert_insert_eq.
  - rewrite Hfs2, Hfiles. done.
Qed.

Lemma add_then_remove_roundtrip_witness :
  exists k r2 s2, knowledges (st0 {[ "k1" := k1 ["f2"] ]}) !! "k1" = Some k /\
    run (remove_file_from_knowledge_by_id "k1" "f1")
      (snd (run (add_file_to_knowledge_by_id None "k1" "f1") (st0 {[ "k1" := k1 ["f2"] ]})))
      = (inl r2, s2) /\
    member_ids (resp_knowledge r2) = member_ids k /\
    knowledges s2 = <[ "k1" := resp_knowledge r2 ]> (knowledges (st0 {[ "k1" := k1 ["f2"] ]})) /\
    files s2 = delete "f1" (files (st0 {[ "k1" := k1 ["f2"] ]})).
Proof.
  apply (add_then_remove_roundtrip None "k1" "f1" (st0 {[ "k1" := k1 ["f2"] ]}) _
           (mkResp (k1 ["f2"; "f1"]) [f2; f1])).
  reflexivity.
Defined.

(** removeFile with an unknown file_id answers HTTP 400 NOT_FOUND and
    changes nothing, whether or not the collection exists. *)
Theorem remove_file_missing_file (id fid : string) (s : St) :
  files s !! fid = None ->
  run (remove_file_from_knowledge_by_id id fid) s
    = (inr (HTTPException HTTP_400_BAD_REQUEST NOT_FOUND), s).
Proof.
  intros Hf. run_router. rewrite Hf. by destruct s.
Qed.

Lemma remove_file_missing_file_witness :
  run (remove_file_from_knowledge_by_id "k9" "f9" ) (st0 ∅)
    = (inr (HTTPException HTTP_400_BAD_REQUEST NOT_FOUND), st0 ∅).
Proof.
  apply remove_file_missing_file. reflexivity.
Defined.

(** Deleting a collection never deletes a file record or a stored blob,
    and leaves every other collection's record as it was. *)
Theorem delete_knowledge_keeps_files (id : string) (s : St) :
  files (snd (run (delete_knowledge_by_id id) s)) = files s /\
  blobs (snd (run (delete_knowledge_by_id id) s)) = blobs s /\
  (forall id', id' <> id ->
     knowledges (snd (run (delete_knowledge_by_id id) s)) !! id' = knowledges s !! id').
Proof.
  run_router. split; [done|]. split; [done|].
  intros id' Hne. by apply lookup_delete_ne.
Qed.

(** addFile and removeFile change at most the record of the collection
    they name; addFile never changes file records or blobs. *)
Theorem add_remove_touch_only_target (ix : option string) (id id' fid : string) (s : St) :
  id' <> id ->
  knowledges (snd (run (add_file_to_knowledge_by_id ix id fid) s)) !! id'
    = knowledges s !! id' /\
  knowledges (snd (run (remove_file_from_knowledge_by_id id fid) s)) !! id'
    = knowledges s !! id' /\
  files (snd (run (add_file_to_knowledge_by_id ix id fid) s)) = files s /\
  blobs (snd (run (add_file_to_knowledge_by_id ix id fid) s)) = blobs s.
Proof.
  intros Hne. split; [|split].
  - destruct (add_file_knowledges ix id fid s) as [->|[k [_ [_ ->]]]]; [done|].
    by apply lookup_insert_ne.
  - destruct (remove_file_knowledges id fid s) as [->|[k [_ ->]]]; [done|].
    by apply lookup_insert_ne.
  - apply add_file_files_blobs.
Qed.

Lemma add_remove_touch_only_target_witness :
  knowledges (snd (run (add_file_to_knowledge_by_id None "k1" "f1")
                    (st0 (<[ "k2" := k1 ["f2"] ]> {[ "k1" := k1 [] ]})))) !! "k2"
    = knowledges (st0 (<[ "k2" := k1 ["f2"] ]> {[ "k1" := k1 [] ]})) !! "k2" /\
  knowledges (snd (run (remove_file_from_knowledge_by_id "k1" "f1")
                    (st0 (<[ "k2" := k1 ["f2"] ]> {[ "k1" := k1 [] ]})))) !! "k2"
    = knowledges (st0 (<[ "k2" := k1 ["f2"] ]> {[ "k1" := k1 [] ]})) !! "k2" /\
  files (snd (run (add_file_to_knowledge_by_id None "k1" "f1")
               (st0 (<[ "k2" := k1 ["f2"] ]> {[ "k1" := k1 [] ]}))))
    = files (st0 (<[ "k2" := k1 ["f2"] ]> {[ "k1" := k1 [] ]})) /\
  blobs (snd (run (add_file_to_knowledge_by_id None "k1" "f1")
               (st0 (<[ "k2" := k1 ["f2"] ]> {[ "k1" := k1 [] ]}))))
    = blobs (st0 (<[ "k2" := k1 ["f2"] ]> {[ "k1" := k1 [] ]})).
Proof.
  apply add_remove_touch_only_target. discriminate.
Defined.

(** Removing a file from one collection deletes the file record, while
    another collection that lists the same file_id keeps listing it. *)
Theorem remove_file_leaves_dangling (id id2 fid : string) (s : St) (f : FileModel)
    (k k2 : KnowledgeModel) :
  files s !! fid = Some f -> knowledges s !! id = Some k ->
  knowledges s !! id2 = Some k2 -> id2 <> id -> fid ∈ member_ids k2 ->
  files (snd (run (remove_file_from_knowledge_by_id id fid) s)) !! fid = None /\
  exists k2', knowledges (snd (run (remove_file_from_knowledge_by_id id fid) s)) !! id2
                = Some k2' /\ fid ∈ member_ids k2'.
Proof.
  intros Hf Hk Hk2 Hne Hin. split.
  - rewrite (remove_file_files id fid s f k Hf Hk). apply lookup_delete_eq.
  - exists k2. split; [|done].
    destruct (remove_file_knowledges id fid s) as [->|[k' [_ ->]]]; [done|].
    rewrite lookup_insert_ne by congruence. done.
Qed.

Lemma remove_file_leaves_dangling_witness :
  files (snd (run (remove_file_from_knowledge_by_id "k1" "f1")
               (st0 (<[ "k2" := k1 ["f1"] ]> {[ "k1" := k1 ["f1"] ]})))) !! "f1" = None /\
  exists k2', knowledges (snd (run (remove_file_from_knowledge_by_id "k1" "f1")
                (st0 (<[ "k2" := k1 ["f1"] ]> {[ "k1" := k1 ["f1"] ]})))) !! "k2"
                = Some k2' /\ "f1" ∈ member_ids k2'.
Proof.
  apply (remove_file_leaves_dangling "k1" "k2" "f1"
           (st0 (<[ "k2" := k1 ["f1"] ]> {[ "k1" := k1 ["f1"] ]})) f1 (k1 ["f1"]) (k1 ["f1"]));
    [reflexivity|reflexivity|reflexivity|discriminate|].
  unfold member_ids. simpl. set_solver.
Defined.
